(** * Transfer of teams and members between two GitHub organizations

    A shallow embedding of [RestAPI_CREATE_ORG_TEAMS-MEMBERS.py] and the
    properties of its four API wrappers and of its orchestrator.

    The script is sequential glue around the [requests] library.  Its
    observable behaviour is the sequence of HTTP requests it sends and of
    lines it prints, so every function is embedded as a computation that
    reads the events that happened so far and yields an outcome (a returned
    value or a raised Python exception) together with the events it added.

    Modelling boundary.  [requests] and the Python runtime are not part of
    the repository.  A reply is represented by what the script reads from
    it: [status_code] and the value of [.json()].  The platform is a
    function from the requests sent so far and the current request to a
    reply, so replies may depend on everything the script did before.
    Transport errors and bodies that are not JSON are outside the model.
    Python's [repr] of a [str] and of a [float] are taken from the host. *)

From Stdlib Require Import ZArith List String Ascii Bool Lia DecimalString.
From Stdlib Require Import Floats.
Import ListNotations.
Local Open Scope string_scope.
Local Open Scope Z_scope.
Set Warnings "-register-all".

(** ** Python values *)

(** The values the script handles: what [json.loads] can produce, which also
    covers [None]/[str] coming from the environment and from [argparse].
    A [dict] keeps its insertion order; its keys are strings and a key
    occurs once. *)
Inductive pyval : Type :=
| VNone
| VBool (b : bool)
| VInt (n : Z)
| VFloat (f : float)
| VStr (s : string)
| VList (items : list pyval)
| VDict (entries : list (string * pyval)).

(** Exceptions raised by the operations the script applies to its data. *)
Inductive exn : Type :=
| KeyError (key : string)
| TypeError.

Inductive outcome (A : Type) : Type :=
| Ret (a : A)
| Raise (e : exn).
Arguments Ret {A} a.
Arguments Raise {A} e.

(** ** Requests, replies, events *)

Inductive method : Type := GET | POST | PUT.

(** [req_json] records the [json=] keyword argument of the call, when the
    call has one. *)
Record Request : Type := mkRequest {
  req_method : method;
  req_url : string;
  req_headers : list (string * string);
  req_json : option pyval
}.

Record Response : Type := mkResponse {
  status_code : Z;
  json : pyval
}.

Inductive Event : Type :=
| Sent (r : Request)
| Printed (line : string).

(** What lies outside the script: the two [repr] functions of the runtime
    and the platform answering the requests. *)
Class Host : Type := {
  repr_str : string -> string;
  repr_float : float -> string;
  respond : list Request -> Request -> Response
}.

(** ** Built-in operations *)

(** [bool(v)]. *)
Definition truthy (v : pyval) : bool :=
  match v with
  | VNone => false
  | VBool b => b
  | VInt n => negb (n =? 0)
  | VFloat f => negb (PrimFloat.eqb f 0%float)
  | VStr s => negb (String.eqb s "")
  | VList items => match items with [] => false | _ :: _ => true end
  | VDict entries => match entries with [] => false | _ :: _ => true end
  end.

Definition str_of_int (n : Z) : string := NilZero.string_of_int (Z.to_int n).

(** [repr(v)]. *)
Fixpoint py_repr `{Host} (v : pyval) : string :=
  match v with
  | VNone => "None"
  | VBool true => "True"
  | VBool false => "False"
  | VInt n => str_of_int n
  | VFloat f => repr_float f
  | VStr s => repr_str s
  | VList items => "[" ++ String.concat ", " (map py_repr items) ++ "]"
  | VDict entries =>
      "{" ++ String.concat ", "
               (map (fun kv => match kv with
                               | (k, x) => repr_str k ++ ": " ++ py_repr x
                               end) entries) ++ "}"
  end.

(** [str(v)], which is what an f-string field [{v}] inserts. *)
Definition py_str `{Host} (v : pyval) : string :=
  match v with
  | VStr s => s
  | _ => py_repr v
  end.

Fixpoint lookup (key : string) (entries : list (string * pyval)) : option pyval :=
  match entries with
  | [] => None
  | (k, x) :: rest => if String.eqb k key then Some x else lookup key rest
  end.

(** [v[key]] with a string key. *)
Definition getitem (v : pyval) (key : string) : outcome pyval :=
  match v with
  | VDict entries =>
      match lookup key entries with
      | Some x => Ret x
      | None => Raise (KeyError key)
      end
  | _ => Raise TypeError
  end.

Fixpoint chars (s : string) : list pyval :=
  match s with
  | EmptyString => []
  | String c rest => VStr (String c EmptyString) :: chars rest
  end.

(** The items a [for] loop over [v] visits. *)
Definition py_iter (v : pyval) : outcome (list pyval) :=
  match v with
  | VList items => Ret items
  | VDict entries => Ret (map (fun kv => VStr (fst kv)) entries)
  | VStr s => Ret (chars s)
  | _ => Raise TypeError
  end.

(** ** Computations *)

(** A computation receives the events so far and yields its outcome and the
    events it adds, oldest first.  Events emitted before an exception is
    raised are kept. *)
Definition M (A : Type) : Type := list Event -> outcome A * list Event.

Definition ret {A} (a : A) : M A := fun _ => (Ret a, []).

Definition bind {A B} (m : M A) (k : A -> M B) : M B :=
  fun past =>
    match m past with
    | (Ret a, out1) =>
        match k a (past ++ out1)%list with
        | (r, out2) => (r, (out1 ++ out2)%list)
        end
    | (Raise e, out1) => (Raise e, out1)
    end.

Definition lift {A} (o : outcome A) : M A := fun _ => (o, []).

Declare Scope py_scope.
Delimit Scope py_scope with py.
Notation "x <- m ;; k" := (bind m (fun x => k))
  (at level 100, m at next level, right associativity) : py_scope.
Notation "m ;; k" := (bind m (fun _ => k))
  (at level 100, right associativity) : py_scope.
Local Open Scope py_scope.

Definition print (line : string) : M unit := fun _ => (Ret tt, [Printed line]).

Fixpoint requests_of (evs : list Event) : list Request :=
  match evs with
  | [] => []
  | Sent r :: rest => r :: requests_of rest
  | Printed _ :: rest => requests_of rest
  end.

Definition send `{Host} (r : Request) : M Response :=
  fun past => (Ret (respond (requests_of past) r), [Sent r]).

Definition requests_get `{Host} (url : string) (headers : list (string * string)) : M Response :=
  send (mkRequest GET url headers None).

Definition requests_post `{Host} (url : string) (body : pyval)
    (headers : list (string * string)) : M Response :=
  send (mkRequest POST url headers (Some body)).

Definition requests_put `{Host} (url : string) (headers : list (string * string)) : M Response :=
  send (mkRequest PUT url headers None).

(** [for x in xs: body x] over the items already obtained from the iterable. *)
Fixpoint for_each {A} (xs : list A) (body : A -> M unit) : M unit :=
  match xs with
  | [] => ret tt
  | x :: rest => body x ;; for_each rest body
  end.

(** ** The script *)

Definition apiUrl : string := "https://api.github.com".

Definition auth_headers `{Host} (access_token : pyval) : list (string * string) :=
  [("Authorization", "Bearer " ++ py_str access_token)].

Definition get_teams `{Host} (source_org access_token : pyval) : M pyval :=
  let url := apiUrl ++ "/orgs/" ++ py_str source_org ++ "/teams" in
  let headers := auth_headers access_token in
  response <- requests_get url headers ;;
  if status_code response =? 200 then
    ret (json response)
  else
    print ("Failed to fetch teams from " ++ py_str source_org
           ++ ". Status code: " ++ str_of_int (status_code response)) ;;
    ret VNone.

Definition get_team_members `{Host} (team_id access_token : pyval) : M pyval :=
  let url := apiUrl ++ "/teams/" ++ py_str team_id ++ "/members" in
  let headers := auth_headers access_token in
  response <- requests_get url headers ;;
  if status_code response =? 200 then
    ret (json response)
  else
    print ("Failed to fetch members for team " ++ py_str team_id
           ++ ". Status code: " ++ str_of_int (status_code response)) ;;
    ret VNone.

Definition create_team `{Host} (destination_org access_token team_data : pyval) : M pyval :=
  let url := apiUrl ++ "/orgs/" ++ py_str destination_org ++ "/teams" in
  let headers := auth_headers access_token in
  response <- requests_post url team_data headers ;;
  if status_code response =? 201 then
    name <- lift (getitem team_data "name") ;;
    print ("Team - " ++ py_str name ++ " created successfully in "
           ++ py_str destination_org) ;;
    ret (json response)
  else
    name <- lift (getitem team_data "name") ;;
    print ("Failed to create team " ++ py_str name ++ " in "
           ++ py_str destination_org ++ ". Status code: "
           ++ str_of_int (status_code response)) ;;
    ret VNone.

(** The body of the loop of [add_members_to_team]. *)
Definition add_member `{Host} (team_id : pyval) (url : string)
    (headers : list (string * string)) (member : pyval) : M unit :=
  username <- lift (getitem member "login") ;;
  response <- requests_put (url ++ "/" ++ py_str username) headers ;;
  if status_code response =? 200 then
    print ("Member - " ++ py_str username ++ " added successfully to team "
           ++ py_str team_id)
  else
    print ("Failed to add member " ++ py_str username ++ " to team "
           ++ py_str team_id ++ ". Status code: "
           ++ str_of_int (status_code response)).

Definition add_members_to_team `{Host} (team_id access_token members : pyval) : M unit :=
  if negb (truthy team_id) then
    print "Team ID is not valid. Skipping adding members."
  else
    let url := apiUrl ++ "/teams/" ++ py_str team_id ++ "/memberships" in
    let headers := auth_headers access_token in
    items <- lift (py_iter members) ;;
    for_each items (add_member team_id url headers).

(** The body of the loop of [transfer_teams]. *)
Definition transfer_team `{Host} (destination_org access_token team : pyval) : M unit :=
  new_team_response <- create_team destination_org access_token team ;;
  if truthy new_team_response then
    new_team_id <- lift (getitem new_team_response "id") ;;
    source_id <- lift (getitem team "id") ;;
    team_members <- get_team_members source_id access_token ;;
    if truthy team_members then
      add_members_to_team new_team_id access_token team_members
    else ret tt
  else ret tt.

Definition transfer_teams `{Host} (source_org destination_org access_token : pyval) : M unit :=
  teams <- get_teams source_org access_token ;;
  if truthy teams then
    items <- lift (py_iter teams) ;;
    for_each items (transfer_team destination_org access_token)
  else ret tt.

(** [os.environ.get] and [argparse] yield a [str] or [None]. *)
Definition of_option (o : option string) : pyval :=
  match o with
  | Some s => VStr s
  | None => VNone
  end.

Definition token_warning : string :=
  "Error: GitHub access token not found. Please set GITHUB_ACCESS_TOKEN environmental variable.".

(** The module body: [env_token] is the value of [GITHUB_ACCESS_TOKEN] in the
    environment, [source_org] and [destination_org] are the two options as
    [argparse] returned them ([None] for an option that was not given). *)
Definition main `{Host} (env_token source_org destination_org : option string) : M unit :=
  let access_token := of_option env_token in
  (if negb (truthy access_token) then print token_warning else ret tt) ;;
  let source_organization := of_option source_org in
  let destination_organization := of_option destination_org in
  transfer_teams source_organization destination_organization access_token.

(** A run from the start of the process. *)
Definition run {A} (m : M A) : outcome A * list Event := m [].

(** ** Sample hosts and data *)

(** A runtime whose [repr] of a string only adds the quotes, which is what
    Python prints for the plain strings used in the samples. *)
Definition quote (s : string) : string := "'" ++ s ++ "'".

(** A platform that gives the same reply to every request. *)
Definition fixed_host (reply : Response) : Host :=
  {| repr_str := quote; repr_float := fun _ => "0.0"; respond := fun _ _ => reply |}.

Definition team_core : pyval := VDict [("id", VInt 1); ("name", VStr "core")].
Definition team_infra : pyval := VDict [("id", VInt 2); ("name", VStr "infra")].
Definition member_alice : pyval := VDict [("login", VStr "alice")].
Definition member_bob : pyval := VDict [("login", VStr "bob")].

Definition not_found : Response :=
  mkResponse 404 (VDict [("message", VStr "Not Found")]).

(** A platform in the shape of the end-to-end scenario: organization Acme
    has the teams [teams], the team with identifier 1 has the member alice,
    creating a team named core succeeds with identifier 101 and creating
    anything else fails, adding a member succeeds. *)
Definition org_respond (teams : pyval) (_ : list Request) (r : Request) : Response :=
  match req_method r with
  | GET =>
      if String.eqb (req_url r) "https://api.github.com/orgs/Acme/teams" then
        mkResponse 200 teams
      else if String.eqb (req_url r) "https://api.github.com/teams/1/members" then
        mkResponse 200 (VList [member_alice])
      else not_found
  | POST =>
      match req_json r with
      | Some (VDict entries) =>
          match lookup "name" entries with
          | Some (VStr "core") =>
              mkResponse 201 (VDict [("id", VInt 101); ("name", VStr "core")])
          | _ => mkResponse 500 VNone
          end
      | _ => mkResponse 500 VNone
      end
  | PUT => mkResponse 200 (VDict [("state", VStr "active")])
  end.

Definition org_host (teams : pyval) : Host :=
  {| repr_str := quote; repr_float := fun _ => "0.0"; respond := org_respond teams |}.

Definition acme_host : Host := org_host (VList [team_core; team_infra]).

(** A team object without a name, and a member object without a login. *)
Definition team_nameless : pyval := VDict [("id", VInt 1)].
Definition member_loginless : pyval := VDict [("id", VInt 5)].

(** The platform answering 201 to everything, with a created-team body. *)
Definition created_host : Host :=
  fixed_host (mkResponse 201 (VDict [("id", VInt 7)])).

(** A platform on which creating a team succeeds and every team has no
    member.  The identifier it assigns is 0. *)
Definition memberless_host : Host :=
  {| repr_str := quote; repr_float := fun _ => "0.0";
     respond := fun _ r =>
       match req_method r with
       | POST => mkResponse 201 (VDict [("id", VInt 0); ("name", VStr "core")])
       | _ => mkResponse 200 (VList [])
       end |}.

(** A platform that lists core and infra and answers a creation with 201
    and a body that has no identifier. *)
Definition idless_host : Host :=
  {| repr_str := quote; repr_float := fun _ => "0.0";
     respond := fun _ r =>
       match req_method r with
       | GET => mkResponse 200 (VList [team_core; team_infra])
       | _ => mkResponse 201 (VDict [("name", VStr "core")])
       end |}.

(** A platform on which every call is refused, as it is without a token. *)
Definition unauthorized_host : Host :=
  fixed_host (mkResponse 401 (VDict [("message", VStr "Bad credentials")])).

(** A platform that lists core and infra and refuses everything else. *)
Definition forbidden_host : Host :=
  {| repr_str := quote; repr_float := fun _ => "0.0";
     respond := fun _ r =>
       match req_method r with
       | GET => mkResponse 200 (VList [team_core; team_infra])
       | _ => mkResponse 403 (VDict [("message", VStr "Forbidden")])
       end |}.


(** A platform on which a creation is answered 201 with an empty object. *)
Definition hollow_host : Host := fixed_host (mkResponse 201 (VDict [])).

(** ** Vocabulary of the statements *)

(** The four requests of the wire protocol, as the wrappers build them. *)
Definition listing_request `{Host} (source_org access_token : pyval) : Request :=
  mkRequest GET (apiUrl ++ "/orgs/" ++ py_str source_org ++ "/teams")
            (auth_headers access_token) None.

Definition members_request `{Host} (team_id access_token : pyval) : Request :=
  mkRequest GET (apiUrl ++ "/teams/" ++ py_str team_id ++ "/members")
            (auth_headers access_token) None.

Definition creation_request `{Host} (destination_org access_token team_data : pyval) : Request :=
  mkRequest POST (apiUrl ++ "/orgs/" ++ py_str destination_org ++ "/teams")
            (auth_headers access_token) (Some team_data).

Definition membership_request `{Host} (team_id access_token username : pyval) : Request :=
  mkRequest PUT ((apiUrl ++ "/teams/" ++ py_str team_id ++ "/memberships")
                 ++ "/" ++ py_str username)
            (auth_headers access_token) None.

Definition guard_message : string := "Team ID is not valid. Skipping adding members.".

Definition returns {A} (r : outcome A * list Event) : bool :=
  match fst r with
  | Ret _ => true
  | Raise _ => false
  end.

Definition has_item (v : pyval) (key : string) : bool :=
  match getitem v key with
  | Ret _ => true
  | Raise _ => false
  end.

(** The value under [key], for objects that have one. *)
Definition item (v : pyval) (key : string) : pyval :=
  match getitem v key with
  | Ret x => x
  | Raise _ => VNone
  end.

(** A member list that [add_members_to_team] can walk to its end. *)
Definition members_ok (members : pyval) : bool :=
  match py_iter members with
  | Ret items => forallb (fun m => has_item m "login") items
  | Raise _ => false
  end.

Definition is_method (m : method) (r : Request) : bool :=
  match m, req_method r with
  | GET, GET | POST, POST | PUT, PUT => true
  | _, _ => false
  end.

(** The requests of one method among the events, oldest first. *)
Definition calls (m : method) (evs : list Event) : list Request :=
  filter (is_method m) (requests_of evs).

(** * Properties *)

(** ** The monad and the loop *)

Lemma requests_of_app (xs ys : list Event) :
  requests_of (xs ++ ys) = (requests_of xs ++ requests_of ys)%list.
Proof.
  induction xs as [|e xs IH]; simpl; [reflexivity|].
  destruct e; simpl; rewrite IH; reflexivity.
Qed.

Lemma calls_app (m : method) (xs ys : list Event) :
  calls m (xs ++ ys) = (calls m xs ++ calls m ys)%list.
Proof. unfold calls. rewrite requests_of_app. apply filter_app. Qed.

Lemma bind_run {A B} (m : M A) (k : A -> M B) (past : list Event) :
  bind m k past =
  match m past with
  | (Ret a, out1) => (fst (k a (past ++ out1)%list), (out1 ++ snd (k a (past ++ out1)%list))%list)
  | (Raise e, out1) => (Raise e, out1)
  end.
Proof.
  unfold bind. destruct (m past) as [[a|e] out1]; [|reflexivity].
  destruct (k a (past ++ out1)%list); reflexivity.
Qed.

Lemma for_each_cons {A} (x : A) (xs : list A) (body : A -> M unit) (past : list Event) :
  for_each (x :: xs) body past =
  match body x past with
  | (Ret _, out1) =>
      (fst (for_each xs body (past ++ out1)%list),
       (out1 ++ snd (for_each xs body (past ++ out1)%list))%list)
  | (Raise e, out1) => (Raise e, out1)
  end.
Proof. simpl. apply bind_run. Qed.

(** ** The four wrappers, call by call *)

Section Wrappers.
Context `{Host}.

Lemma get_teams_run (source_org access_token : pyval) (past : list Event) :
  get_teams source_org access_token past =
  let request := listing_request source_org access_token in
  let response := respond (requests_of past) request in
  if status_code response =? 200 then (Ret (json response), [Sent request])
  else (Ret VNone,
        [Sent request;
         Printed ("Failed to fetch teams from " ++ py_str source_org
                  ++ ". Status code: " ++ str_of_int (status_code response))]).
Proof.
  cbv [get_teams bind requests_get send listing_request ret print app].
  destruct (status_code _ =? 200); reflexivity.
Qed.

Lemma get_team_members_run (team_id access_token : pyval) (past : list Event) :
  get_team_members team_id access_token past =
  let request := members_request team_id access_token in
  let response := respond (requests_of past) request in
  if status_code response =? 200 then (Ret (json response), [Sent request])
  else (Ret VNone,
        [Sent request;
         Printed ("Failed to fetch members for team " ++ py_str team_id
                  ++ ". Status code: " ++ str_of_int (status_code response))]).
Proof.
  cbv [get_team_members bind requests_get send members_request ret print app].
  destruct (status_code _ =? 200); reflexivity.
Qed.

Lemma create_team_run (destination_org access_token team_data : pyval)
    (past : list Event) :
  create_team destination_org access_token team_data past =
  let request := creation_request destination_org access_token team_data in
  let response := respond (requests_of past) request in
  match getitem team_data "name" with
  | Raise e => (Raise e, [Sent request])
  | Ret name =>
      if status_code response =? 201 then
        (Ret (json response),
         [Sent request;
          Printed ("Team - " ++ py_str name ++ " created successfully in "
                   ++ py_str destination_org)])
      else
        (Ret VNone,
         [Sent request;
          Printed ("Failed to create team " ++ py_str name ++ " in "
                   ++ py_str destination_org ++ ". Status code: "
                   ++ str_of_int (status_code response))])
  end.
Proof.
  cbv [create_team bind requests_post send creation_request ret print lift app].
  destruct (status_code _ =? 201); destruct (getitem team_data "name"); reflexivity.
Qed.

Lemma add_member_run (team_id : pyval) (url : string)
    (headers : list (string * string)) (member : pyval) (past : list Event) :
  add_member team_id url headers member past =
  match getitem member "login" with
  | Raise e => (Raise e, [])
  | Ret username =>
      let request := mkRequest PUT (url ++ "/" ++ py_str username) headers None in
      let response := respond (requests_of past) request in
      (Ret tt,
       [Sent request;
        Printed (if status_code response =? 200 then
                   "Member - " ++ py_str username ++ " added successfully to team "
                   ++ py_str team_id
                 else
                   "Failed to add member " ++ py_str username ++ " to team "
                   ++ py_str team_id ++ ". Status code: "
                   ++ str_of_int (status_code response))])
  end.
Proof.
  cbv [add_member bind requests_put send ret print lift].
  destruct (getitem member "login") as [username|e]; [|reflexivity].
  rewrite app_nil_r.
  destruct (status_code _ =? 200); reflexivity.
Qed.

End Wrappers.

(** ** Loops *)

Section Loops.
Context {A : Type} (body : A -> M unit).

(** A property of the events of every iteration holds of the events of
    the loop. *)
Lemma for_each_Forall (P : Event -> Prop) :
  (forall x past, Forall P (snd (body x past))) ->
  forall xs past, Forall P (snd (for_each xs body past)).
Proof.
  intros Hbody xs. induction xs as [|x xs IH]; intros past.
  - constructor.
  - rewrite for_each_cons. specialize (Hbody x past).
    destruct (body x past) as [[u|e] out1]; simpl in *; [|assumption].
    apply Forall_app. split; [assumption|apply IH].
Qed.

(** Every event of the loop belongs to the iteration of some item, which
    ran after the events that precede it. *)
Lemma for_each_In (e : Event) :
  forall xs past,
    In e (snd (for_each xs body past)) ->
    exists x pre post,
      In x xs /\
      snd (for_each xs body past)
      = (pre ++ snd (body x (past ++ pre)) ++ post)%list /\
      In e (snd (body x (past ++ pre)%list)).
Proof.
  intros xs. induction xs as [|x xs IH]; intros past Hin.
  - destruct Hin.
  - rewrite for_each_cons in Hin |- *.
    destruct (body x past) as [[u|e'] out1] eqn:Hx; simpl in Hin |- *.
    + apply in_app_or in Hin. destruct Hin as [Hin|Hin].
      * exists x, [], (snd (for_each xs body (past ++ out1)%list)).
        simpl. rewrite !app_nil_r, Hx. simpl. auto.
      * destruct (IH _ Hin) as (y & pre & post & Hy & Heq & Hiny).
        exists y, (out1 ++ pre)%list, post.
        rewrite <- app_assoc in Heq, Hiny.
        split; [right; assumption|]. split; [|assumption].
        rewrite Heq, <- app_assoc. reflexivity.
    + exists x, [], []. simpl. rewrite !app_nil_r, Hx. simpl. auto.
Qed.

(** The calls of one method made by the loop, when every iteration makes
    exactly one: they are those of the items reached, in order, and of all
    the items when the loop ends without an exception. *)
Lemma for_each_calls (m : method) (call : A -> Request) :
  (forall x past, calls m (snd (body x past)) = [call x]) ->
  forall xs past,
    exists k, (k <= List.length xs)%nat /\
      calls m (snd (for_each xs body past)) = map call (firstn k xs) /\
      (returns (for_each xs body past) = true -> k = List.length xs) /\
      (xs <> [] -> (0 < k)%nat).
Proof.
  intros Hbody xs. induction xs as [|x xs IH]; intros past.
  - exists 0%nat. simpl. repeat split; auto. congruence.
  - rewrite for_each_cons. specialize (Hbody x past).
    destruct (body x past) as [[u|e] out1]; simpl in Hbody.
    + destruct (IH (past ++ out1)%list) as (k & Hk & Hcalls & Hret & _).
      exists (S k). simpl. rewrite calls_app, Hbody, Hcalls.
      repeat split; auto; lia.
    + exists 1%nat. simpl. rewrite Hbody.
      repeat split; auto; try lia.
      unfold returns. simpl. discriminate.
Qed.

End Loops.

(** ** Adding the members of one team *)

Section AddMembers.
Context `{Host}.

Lemma add_members_to_team_run (team_id access_token members : pyval)
    (past : list Event) :
  add_members_to_team team_id access_token members past =
  if truthy team_id then
    match py_iter members with
    | Ret items =>
        for_each items
          (add_member team_id
             (apiUrl ++ "/teams/" ++ py_str team_id ++ "/memberships")
             (auth_headers access_token)) past
    | Raise e => (Raise e, [])
    end
  else (Ret tt, [Printed guard_message]).
Proof.
  unfold add_members_to_team. destruct (truthy team_id); [|reflexivity].
  cbv [negb]. rewrite bind_run. cbv [lift].
  destruct (py_iter members) as [items|e]; [|reflexivity].
  rewrite app_nil_r. simpl. destruct (for_each _ _ _); reflexivity.
Qed.

(** The loop over members whose login can be read sends one PUT per
    member, in order, whatever the replies are, and comes to its end. *)
Lemma put_loop (team_id : pyval) (url : string) (headers : list (string * string)) :
  forall items past,
    forallb (fun m => has_item m "login") items = true ->
    exists evs,
      for_each items (add_member team_id url headers) past = (Ret tt, evs) /\
      requests_of evs
      = map (fun m => mkRequest PUT (url ++ "/" ++ py_str (item m "login"))
                                headers None) items /\
      List.length evs = (2 * List.length items)%nat.
Proof.
  intros items. induction items as [|m items IH]; intros past Hall.
  - exists []. repeat split.
  - simpl in Hall. apply andb_true_iff in Hall. destruct Hall as [Hm Hall].
    rewrite for_each_cons, add_member_run.
    unfold has_item in Hm.
    destruct (getitem m "login") as [username|e] eqn:Hlogin; [|discriminate].
    cbv beta iota zeta.
    match goal with
    | |- context [for_each items _ ?p] =>
        destruct (IH p Hall) as (evs & Hrun & Hreq & Hlen)
    end.
    rewrite Hrun. eexists. split; [reflexivity|].
    cbn [fst snd app requests_of map List.length]. unfold item at 1.
    rewrite Hreq, Hlen, Hlogin. split; [reflexivity|lia].
Qed.

(** The loop comes to its end exactly when every login can be read. *)
Lemma put_loop_returns (team_id : pyval) (url : string)
    (headers : list (string * string)) :
  forall items past,
    returns (for_each items (add_member team_id url headers) past)
    = forallb (fun m => has_item m "login") items.
Proof.
  intros items. induction items as [|m items IH]; intros past.
  - reflexivity.
  - rewrite for_each_cons, add_member_run. cbn [forallb]. unfold has_item at 1.
    destruct (getitem m "login") as [username|e]; [|reflexivity].
    cbv beta iota zeta. cbn [andb]. apply IH.
Qed.

(** Whatever [add_members_to_team] does, the requests it sends are PUTs to
    the membership endpoint of the team it was given, with the bearer
    header. *)
Lemma add_members_events (team_id access_token members : pyval)
    (past : list Event) (e : Event) :
  In e (snd (add_members_to_team team_id access_token members past)) ->
  match e with
  | Sent r =>
      truthy team_id = true /\
      exists username, r = membership_request team_id access_token username
  | Printed _ => True
  end.
Proof.
  rewrite add_members_to_team_run.
  destruct (truthy team_id) eqn:Hid.
  - destruct (py_iter members) as [items|err]; [|intros []].
    revert e. apply Forall_forall. apply for_each_Forall. clear past.
    intros m past. rewrite add_member_run.
    destruct (getitem m "login") as [username|err]; [|constructor].
    cbv zeta. simpl. repeat constructor.
    exists username. reflexivity.
  - simpl. intros [<-|[]]. exact I.
Qed.

End AddMembers.

(** ** Transferring one team *)

Section TransferTeam.
Context `{Host}.

Lemma transfer_team_run (destination_org access_token team : pyval)
    (past : list Event) :
  transfer_team destination_org access_token team past =
  match create_team destination_org access_token team past with
  | (Raise e, evs1) => (Raise e, evs1)
  | (Ret new_team_response, evs1) =>
      if truthy new_team_response then
        match getitem new_team_response "id", getitem team "id" with
        | Raise e, _ => (Raise e, evs1)
        | Ret _, Raise e => (Raise e, evs1)
        | Ret new_team_id, Ret source_id =>
            match get_team_members source_id access_token (past ++ evs1)%list with
            | (Raise e, evs2) => (Raise e, (evs1 ++ evs2)%list)
            | (Ret team_members, evs2) =>
                if truthy team_members then
                  (fst (add_members_to_team new_team_id access_token team_members
                          (past ++ evs1 ++ evs2)%list),
                   (evs1 ++ evs2
                    ++ snd (add_members_to_team new_team_id access_token team_members
                              (past ++ evs1 ++ evs2)%list))%list)
                else (Ret tt, (evs1 ++ evs2)%list)
            end
        end
      else (Ret tt, evs1)
  end.
Proof.
  unfold transfer_team. rewrite bind_run.
  destruct (create_team _ _ _ _) as [[new_team_response|e] evs1]; [|reflexivity].
  destruct (truthy new_team_response); [|cbv [ret]; cbn; now rewrite app_nil_r].
  rewrite bind_run. cbv [lift].
  destruct (getitem new_team_response "id") as [new_team_id|e];
    [|cbn; now rewrite app_nil_r].
  rewrite bind_run.
  destruct (getitem team "id") as [source_id|e]; [|cbn; now rewrite app_nil_r].
  rewrite bind_run, !app_nil_r.
  destruct (get_team_members _ _ _) as [[team_members|e] evs2]; [|reflexivity].
  rewrite <- app_assoc.
  destruct (truthy team_members); cbn; [reflexivity|now rewrite app_nil_r].
Qed.

(** Events that contain no request of a method contribute no call of it. *)
Lemma calls_none (m : method) (evs : list Event) :
  (forall r, In (Sent r) evs -> is_method m r = false) ->
  calls m evs = [].
Proof.
  unfold calls. induction evs as [|[r|line] evs IH]; intros Hno; simpl.
  - reflexivity.
  - rewrite (Hno r) by (left; reflexivity). apply IH.
    intros r' Hr'. apply Hno. right. assumption.
  - apply IH. intros r' Hr'. apply Hno. right. assumption.
Qed.

Lemma add_members_no_post (team_id access_token members : pyval)
    (past : list Event) :
  calls POST (snd (add_members_to_team team_id access_token members past)) = [].
Proof.
  apply calls_none. intros r Hr.
  apply add_members_events in Hr. destruct Hr as (_ & username & ->).
  reflexivity.
Qed.

(** Processing one team makes exactly one creation call, for that team,
    with the team as its body, whether or not it ends in an exception. *)
Lemma transfer_team_creation_call (destination_org access_token team : pyval)
    (past : list Event) :
  calls POST (snd (transfer_team destination_org access_token team past))
  = [creation_request destination_org access_token team].
Proof.
  rewrite transfer_team_run, create_team_run. cbv zeta.
  destruct (getitem team "name") as [name|e]; [|reflexivity].
  destruct (status_code _ =? 201); [|reflexivity].
  destruct (truthy (json _)); [|reflexivity].
  destruct (getitem (json _) "id") as [new_team_id|e]; [|reflexivity].
  destruct (getitem team "id") as [source_id|e]; [|reflexivity].
  rewrite get_team_members_run. cbv zeta.
  destruct (status_code _ =? 200); [|reflexivity].
  destruct (truthy (json _)); [|reflexivity].
  cbn [snd]. rewrite !calls_app, add_members_no_post. reflexivity.
Qed.

End TransferTeam.

Section TransferTeamCalls.
Context `{Host}.

(** A member-addition call made while one team is processed comes after
    the creation call of that team, which was answered 201 with a truthy
    body whose identifier is truthy and is the team the call addresses. *)
Lemma transfer_team_put (destination_org access_token team : pyval)
    (past : list Event) (p : Request) :
  In (Sent p) (snd (transfer_team destination_org access_token team past)) ->
  req_method p = PUT ->
  let creation := creation_request destination_org access_token team in
  let response := respond (requests_of past) creation in
  exists rest new_team_id username,
    snd (transfer_team destination_org access_token team past)
    = Sent creation :: rest /\
    In (Sent p) rest /\
    status_code response = 201 /\
    truthy (json response) = true /\
    getitem (json response) "id" = Ret new_team_id /\
    truthy new_team_id = true /\
    p = membership_request new_team_id access_token username.
Proof.
  rewrite transfer_team_run, create_team_run. cbv zeta.
  destruct (getitem team "name") as [name|e];
    [|intros [[= <-]|[]]; discriminate].
  destruct (status_code _ =? 201) eqn:Hstatus;
    [|intros [[= <-]|[[=]|[]]]; discriminate].
  destruct (truthy (json _)) eqn:Htruthy;
    [|intros [[= <-]|[[=]|[]]]; discriminate].
  destruct (getitem (json _) "id") as [new_team_id|e] eqn:Hid;
    [|intros [[= <-]|[[=]|[]]]; discriminate].
  destruct (getitem team "id") as [source_id|e];
    [|intros [[= <-]|[[=]|[]]]; discriminate].
  rewrite get_team_members_run. cbv zeta.
  destruct (status_code _ =? 200);
    [|intros [[= <-]|[[=]|[[= <-]|[[=]|[]]]]]; discriminate].
  destruct (truthy (json (respond _ (members_request _ _))));
    [|intros [[= <-]|[[=]|[[= <-]|[]]]]; discriminate].
  cbn [fst snd app].
  intros [[= <-]|[[=]|[[= <-]|Hin]]] Hput; try discriminate.
  pose proof (add_members_events _ _ _ _ _ Hin) as (Hnew & username & Hp).
  eexists _, new_team_id, username.
  split; [reflexivity|]. split; [do 2 right; exact Hin|].
  apply Z.eqb_eq in Hstatus. auto.
Qed.

(** When the creation call is not answered 201, or [create_team] returns
    [None], the creation call is the only request made for the team. *)
Lemma transfer_team_failed_creation (destination_org access_token team : pyval)
    (past : list Event) :
  status_code (respond (requests_of past)
                 (creation_request destination_org access_token team)) <> 201
  \/ fst (create_team destination_org access_token team past) = Ret VNone ->
  requests_of (snd (transfer_team destination_org access_token team past))
  = [creation_request destination_org access_token team].
Proof.
  rewrite transfer_team_run, create_team_run. cbv zeta.
  destruct (getitem team "name") as [name|e]; [|reflexivity].
  destruct (status_code _ =? 201) eqn:Hstatus; [|reflexivity].
  apply Z.eqb_eq in Hstatus.
  intros [Hno|Hnone]; [contradiction|].
  cbn [fst] in Hnone. injection Hnone as ->. reflexivity.
Qed.

(** Every request made for a team carries the bearer header. *)
Lemma transfer_team_headers (destination_org access_token team : pyval)
    (past : list Event) :
  Forall (fun e => match e with
                   | Sent r => req_headers r = auth_headers access_token
                   | Printed _ => True
                   end)
         (snd (transfer_team destination_org access_token team past)).
Proof.
  rewrite transfer_team_run, create_team_run. cbv zeta.
  destruct (getitem team "name") as [name|e]; [|repeat constructor].
  destruct (status_code _ =? 201); [|repeat constructor].
  destruct (truthy (json _)); [|repeat constructor].
  destruct (getitem (json _) "id") as [new_team_id|e]; [|repeat constructor].
  destruct (getitem team "id") as [source_id|e]; [|repeat constructor].
  rewrite get_team_members_run. cbv zeta.
  destruct (status_code _ =? 200); [|repeat constructor].
  destruct (truthy (json (respond _ (members_request _ _))));
    [|repeat constructor].
  cbn [fst snd app]. do 3 (constructor; [first [reflexivity|exact I]|]).
  apply Forall_forall. intros [r|line] Hin; [|exact I].
  apply add_members_events in Hin. destruct Hin as (_ & username & ->).
  reflexivity.
Qed.

End TransferTeamCalls.

(** ** The orchestrator *)

Section TransferTeams.
Context `{Host}.

Lemma transfer_teams_run (source_org destination_org access_token : pyval)
    (past : list Event) :
  transfer_teams source_org destination_org access_token past =
  match get_teams source_org access_token past with
  | (Raise e, evs0) => (Raise e, evs0)
  | (Ret teams, evs0) =>
      if truthy teams then
        match py_iter teams with
        | Raise e => (Raise e, evs0)
        | Ret items =>
            (fst (for_each items (transfer_team destination_org access_token)
                    (past ++ evs0)%list),
             (evs0 ++ snd (for_each items
                             (transfer_team destination_org access_token)
                             (past ++ evs0)%list))%list)
        end
      else (Ret tt, evs0)
  end.
Proof.
  unfold transfer_teams. rewrite bind_run.
  destruct (get_teams _ _ _) as [[teams|e] evs0]; [|reflexivity].
  destruct (truthy teams); [|cbn; now rewrite app_nil_r].
  rewrite bind_run. cbv [lift].
  destruct (py_iter teams) as [items|e]; [|cbn; now rewrite app_nil_r].
  rewrite !app_nil_r. reflexivity.
Qed.

(** The events of the listing call. *)
Lemma get_teams_events (source_org access_token : pyval) (past : list Event) :
  exists diagnostics,
    snd (get_teams source_org access_token past)
    = Sent (listing_request source_org access_token) :: diagnostics /\
    requests_of diagnostics = [].
Proof.
  rewrite get_teams_run. cbv zeta.
  destruct (status_code _ =? 200); eexists; split; reflexivity.
Qed.


Lemma transfer_teams_headers (source_org destination_org access_token : pyval)
    (past : list Event) :
  Forall (fun e => match e with
                   | Sent r => req_headers r = auth_headers access_token
                   | Printed _ => True
                   end)
         (snd (transfer_teams source_org destination_org access_token past)).
Proof.
  rewrite transfer_teams_run.
  assert (Hlisting : Forall (fun e => match e with
                   | Sent r => req_headers r = auth_headers access_token
                   | Printed _ => True
                   end) (snd (get_teams source_org access_token past))).
  { rewrite get_teams_run. cbv zeta.
    destruct (status_code _ =? 200); repeat constructor. }
  destruct (get_teams _ _ _) as [[teams|e] evs0]; cbn [snd] in *; [|assumption].
  destruct (truthy teams); [|assumption].
  destruct (py_iter teams) as [items|e]; [|assumption].
  cbn [snd]. apply Forall_app. split; [assumption|].
  apply for_each_Forall. intros team past'. apply transfer_team_headers.
Qed.

End TransferTeams.

Section WholeRun.
Context `{Host}.

Lemma requests_Forall (P : Request -> Prop) (evs : list Event) :
  Forall (fun e => match e with
                   | Sent r => P r
                   | Printed _ => True
                   end) evs ->
  Forall P (requests_of evs).
Proof.
  induction 1 as [|[r|line] evs Hhead _ IH]; simpl; auto.
Qed.

(** The orchestrator starts with the listing call. *)
Lemma transfer_teams_first_event (source_org destination_org access_token : pyval)
    (past : list Event) :
  exists rest,
    snd (transfer_teams source_org destination_org access_token past)
    = Sent (listing_request source_org access_token) :: rest.
Proof.
  rewrite transfer_teams_run.
  destruct (get_teams_events source_org access_token past) as (diag & Hevs & _).
  destruct (get_teams _ _ _) as [[teams|e] evs0]; cbn [snd] in *; subst evs0;
    [|eexists; reflexivity].
  destruct (truthy teams); [|eexists; reflexivity].
  destruct (py_iter teams); eexists; reflexivity.
Qed.

(** The creation calls of a run over a list of teams. *)
Lemma transfer_teams_creation_calls
    (source_org destination_org access_token : pyval) (past : list Event)
    (items : list pyval) :
  fst (get_teams source_org access_token past) = Ret (VList items) ->
  exists k, (k <= List.length items)%nat /\
    calls POST (snd (transfer_teams source_org destination_org access_token past))
    = map (creation_request destination_org access_token) (firstn k items) /\
    (returns (transfer_teams source_org destination_org access_token past) = true ->
     k = List.length items) /\
    (items <> [] -> (0 < k)%nat).
Proof.
  intros Hlist. rewrite transfer_teams_run.
  destruct (get_teams_events source_org access_token past) as (diag & Hevs & Hdiag).
  destruct (get_teams _ _ _) as [[teams|e] evs0]; cbn [fst snd] in *;
    [|discriminate].
  injection Hlist as ->. subst evs0.
  destruct items as [|team items].
  - exists 0%nat. cbn [truthy]. repeat split; auto.
    + unfold calls. cbn [snd requests_of]. rewrite Hdiag. reflexivity.
    + congruence.
  - cbn [truthy py_iter].
    destruct (for_each_calls (transfer_team destination_org access_token) POST
                (creation_request destination_org access_token)
                (transfer_team_creation_call destination_org access_token)
                (team :: items)
                (past ++ Sent (listing_request source_org access_token) :: diag)%list)
      as (k & Hk & Hcalls & Hret & Hpos).
    exists k. cbn [snd]. rewrite calls_app, Hcalls.
    replace (calls POST (Sent (listing_request source_org access_token) :: diag))
      with (@nil Request)
      by (unfold calls; cbn [requests_of]; rewrite Hdiag; reflexivity).
    repeat split; auto.
Qed.

End WholeRun.

Lemma sent_in_requests (r : Request) (evs : list Event) :
  In (Sent r) evs -> In r (requests_of evs).
Proof.
  induction evs as [|[r'|line] evs IH]; simpl; intros Hin.
  - assumption.
  - destruct Hin as [[= ->]|Hin]; auto.
  - destruct Hin as [[=]|Hin]; auto.
Qed.

(** * The claims *)

(** C6.  When the team identifier given to [add_members_to_team] is absent
    or falsy, the function prints its diagnostic and returns: it sends no
    request at all and raises nothing, whatever the credential and whatever
    the member list (even one that could not be walked). *)
Theorem add_members_guard `{Host} (team_id access_token members : pyval)
    (past : list Event) :
  truthy team_id = false ->
  add_members_to_team team_id access_token members past
  = (Ret tt, [Printed guard_message]).
Proof.
  intros Hfalsy. rewrite add_members_to_team_run, Hfalsy. reflexivity.
Qed.

(** C4.  For a truthy team identifier and a list of member objects, each
    with a login, [add_members_to_team] comes to its end having sent exactly
    one PUT per member, addressed by the member's login, in the order of the
    list, each followed by one diagnostic.  The platform is arbitrary, so
    this holds whatever status each PUT is answered with. *)
Theorem add_members_one_put_per_member `{Host} (team_id access_token : pyval)
    (members : list pyval) (past : list Event) :
  truthy team_id = true ->
  forallb (fun m => has_item m "login") members = true ->
  exists evs,
    add_members_to_team team_id access_token (VList members) past = (Ret tt, evs) /\
    requests_of evs
    = map (fun m => membership_request team_id access_token (item m "login")) members /\
    List.length evs = (2 * List.length members)%nat.
Proof.
  intros Hid Hlogins. rewrite add_members_to_team_run, Hid. cbn [py_iter].
  apply (put_loop team_id _ (auth_headers access_token) members past Hlogins).
Qed.

(** C7 (amended).  [get_teams] and [get_team_members] return the parsed body
    exactly when the status is 200, and otherwise print a diagnostic that
    ends with the status code and return [None]; they send one request and
    never retry.  [create_team] does the same around 201, provided the
    name of the team payload can be read. *)
Theorem status_dispatch `{Host}
    (source_org team_id destination_org access_token team_data : pyval)
    (past : list Event) :
  has_item team_data "name" = true ->
  (let request := listing_request source_org access_token in
   let response := respond (requests_of past) request in
   get_teams source_org access_token past =
   if status_code response =? 200 then (Ret (json response), [Sent request])
   else (Ret VNone,
         [Sent request;
          Printed ("Failed to fetch teams from " ++ py_str source_org
                   ++ ". Status code: " ++ str_of_int (status_code response))]))
  /\
  (let request := members_request team_id access_token in
   let response := respond (requests_of past) request in
   get_team_members team_id access_token past =
   if status_code response =? 200 then (Ret (json response), [Sent request])
   else (Ret VNone,
         [Sent request;
          Printed ("Failed to fetch members for team " ++ py_str team_id
                   ++ ". Status code: " ++ str_of_int (status_code response))]))
  /\
  (let request := creation_request destination_org access_token team_data in
   let response := respond (requests_of past) request in
   create_team destination_org access_token team_data past =
   if status_code response =? 201 then
     (Ret (json response),
      [Sent request;
       Printed ("Team - " ++ py_str (item team_data "name")
                ++ " created successfully in " ++ py_str destination_org)])
   else
     (Ret VNone,
      [Sent request;
       Printed ("Failed to create team " ++ py_str (item team_data "name")
                ++ " in " ++ py_str destination_org ++ ". Status code: "
                ++ str_of_int (status_code response))])).
Proof.
  intros Hname. split; [apply get_teams_run|]. split; [apply get_team_members_run|].
  rewrite create_team_run. unfold has_item in Hname. unfold item.
  destruct (getitem team_data "name"); [reflexivity|discriminate].
Qed.

(** C5 (amended).  [get_teams] and [get_team_members] never raise: they
    return the body on their success status and [None] on any other.
    [create_team] does so exactly when the name of the team payload can be
    read; when it cannot, the exception of that read leaves the function,
    at every status.  [add_members_to_team] returns exactly when the team
    identifier is falsy or the members can be walked and every login can be
    read; otherwise the exception of the failed read leaves the function. *)
Theorem wrappers_return_iff_fields_readable `{Host}
    (source_org team_id destination_org access_token team_data members : pyval)
    (past : list Event) :
  fst (get_teams source_org access_token past)
  = (let response := respond (requests_of past)
                       (listing_request source_org access_token) in
     if status_code response =? 200 then Ret (json response) else Ret VNone) /\
  fst (get_team_members team_id access_token past)
  = (let response := respond (requests_of past)
                       (members_request team_id access_token) in
     if status_code response =? 200 then Ret (json response) else Ret VNone) /\
  fst (create_team destination_org access_token team_data past)
  = (let response := respond (requests_of past)
                       (creation_request destination_org access_token team_data) in
     match getitem team_data "name" with
     | Raise e => Raise e
     | Ret _ => if status_code response =? 201 then Ret (json response) else Ret VNone
     end) /\
  returns (add_members_to_team team_id access_token members past)
  = (negb (truthy team_id) || members_ok members).
Proof.
  repeat split.
  - rewrite get_teams_run. cbv zeta. destruct (status_code _ =? 200); reflexivity.
  - rewrite get_team_members_run. cbv zeta.
    destruct (status_code _ =? 200); reflexivity.
  - rewrite create_team_run. cbv zeta.
    destruct (getitem team_data "name"); [|reflexivity].
    destruct (status_code _ =? 201); reflexivity.
  - rewrite add_members_to_team_run. unfold members_ok.
    destruct (truthy team_id); [|reflexivity]. cbn [negb orb].
    destruct (py_iter members) as [items|e]; [|reflexivity].
    apply put_loop_returns.
Qed.

(** C3.  For every pair of organization names, when the listing yields no
    teams ([get_teams] returns [None], an empty list or any other falsy
    value), [transfer_teams] returns normally having added nothing to the
    events of the listing call: the listing is the only request, so there is
    no creation call, no member-addition call and no further message. *)
Theorem no_teams_no_calls `{Host} (source_org destination_org access_token : pyval)
    (past : list Event) (teams : pyval) (evs : list Event) :
  get_teams source_org access_token past = (Ret teams, evs) ->
  truthy teams = false ->
  transfer_teams source_org destination_org access_token past = (Ret tt, evs) /\
  requests_of evs = [listing_request source_org access_token] /\
  calls POST evs = [] /\
  calls PUT evs = [].
Proof.
  intros Hlisting Hfalsy.
  destruct (get_teams_events source_org access_token past) as (diag & Hevs & Hdiag).
  rewrite transfer_teams_run, Hlisting, Hfalsy. rewrite Hlisting in Hevs.
  cbn [snd] in Hevs. subst evs. unfold calls. cbn [requests_of].
  rewrite Hdiag. repeat split.
Qed.

(** C8.  When the token variable is unset or empty, the script prints the
    warning and goes on: its outcome is that of [transfer_teams] run after
    the warning, and its next event is the listing request. *)
Theorem missing_token_warns_and_continues `{Host}
    (env_token source_org destination_org : option string) (past : list Event) :
  env_token = None \/ env_token = Some "" ->
  exists rest,
    main env_token source_org destination_org past
    = (fst (transfer_teams (of_option source_org) (of_option destination_org)
              (of_option env_token) (past ++ [Printed token_warning])%list),
       Printed token_warning
       :: Sent (listing_request (of_option source_org) (of_option env_token))
       :: rest).
Proof.
  intros Hunset.
  destruct (transfer_teams_first_event (of_option source_org)
              (of_option destination_org) (of_option env_token)
              (past ++ [Printed token_warning])%list) as (rest & Hrest).
  exists rest. unfold main. rewrite bind_run.
  destruct Hunset as [-> | ->]; cbn [of_option truthy negb String.eqb] in *;
    cbv [print]; cbn [fst snd app]; rewrite Hrest; reflexivity.
Qed.

(** C9.  When the token is absent the script still sends requests, and each
    of them carries an Authorization header whose value is the text
    "Bearer None". *)
Theorem absent_token_sends_bearer_none `{Host}
    (source_org destination_org : option string) (past : list Event) :
  let sent := requests_of (snd (main None source_org destination_org past)) in
  sent <> [] /\
  Forall (fun r => req_headers r = [("Authorization", "Bearer None")]) sent.
Proof.
  cbv zeta. unfold main. rewrite bind_run. cbn [of_option truthy negb].
  cbv [print]. cbn [fst snd app requests_of].
  split.
  - destruct (transfer_teams_first_event (of_option source_org)
                (of_option destination_org) VNone
                (past ++ [Printed token_warning])%list) as (rest & ->).
    discriminate.
  - apply requests_Forall.
    apply (transfer_teams_headers (of_option source_org)
             (of_option destination_org) VNone).
Qed.

(** C10.  When the member list fetched for a created team is empty,
    [transfer_teams] does for that team what it does when the fetch failed:
    it stops after the fetch.  [add_members_to_team] is not entered, so
    there is no PUT and, even if the new identifier is falsy, no guard
    diagnostic. *)
Theorem empty_member_list_skips_addition `{Host}
    (destination_org access_token team : pyval) (past : list Event)
    (new_team_response new_team_id source_id team_members : pyval)
    (evs1 evs2 : list Event) :
  create_team destination_org access_token team past = (Ret new_team_response, evs1) ->
  truthy new_team_response = true ->
  getitem new_team_response "id" = Ret new_team_id ->
  getitem team "id" = Ret source_id ->
  get_team_members source_id access_token (past ++ evs1)%list
  = (Ret team_members, evs2) ->
  team_members = VList [] \/ team_members = VNone ->
  transfer_team destination_org access_token team past = (Ret tt, (evs1 ++ evs2)%list) /\
  calls PUT (evs1 ++ evs2) = [] /\
  ~ In (Printed guard_message) (evs1 ++ evs2).
Proof.
  intros Hcreate Htruthy Hnew Hsource Hfetch Hempty.
  split.
  - rewrite transfer_team_run, Hcreate, Htruthy, Hnew, Hsource, Hfetch.
    destruct Hempty as [-> | ->]; reflexivity.
  - rewrite create_team_run in Hcreate. cbv zeta in Hcreate.
    rewrite get_team_members_run in Hfetch. cbv zeta in Hfetch.
    destruct (getitem team "name") as [name|e]; [|discriminate].
    destruct (status_code _ =? 201), (status_code _ =? 200);
      injection Hcreate as <- <-; injection Hfetch as <- <-;
      (split; [reflexivity|]); cbn [app In]; intros Hin;
      repeat (destruct Hin as [Hin|Hin]; [discriminate Hin|]); exact Hin.
Qed.

(** C2 (amended).  When the listing returns a list of teams, the creation
    calls of [transfer_teams] are POSTs to the teams endpoint of the
    destination organization whose bodies are the teams themselves, one per
    team and in the order of the list, for an initial segment of the list
    (not empty when the list is not); when the run ends without an
    exception the segment is the whole list. *)
Theorem creation_calls_follow_team_list `{Host}
    (source_org destination_org access_token : pyval) (past : list Event)
    (items : list pyval) :
  fst (get_teams source_org access_token past) = Ret (VList items) ->
  (exists k, (k <= List.length items)%nat /\ (items <> [] -> (0 < k)%nat) /\
     calls POST (snd (transfer_teams source_org destination_org access_token past))
     = map (creation_request destination_org access_token) (firstn k items)) /\
  (returns (transfer_teams source_org destination_org access_token past) = true ->
   calls POST (snd (transfer_teams source_org destination_org access_token past))
   = map (creation_request destination_org access_token) items).
Proof.
  intros Hlist.
  destruct (transfer_teams_creation_calls source_org destination_org access_token
              past items Hlist) as (k & Hk & Hcalls & Hret & Hpos).
  split.
  - exists k. auto.
  - intros Hreturns. rewrite Hcalls, (Hret Hreturns), firstn_all. reflexivity.
Qed.

(** C1.  In every run of [transfer_teams], a member-addition call lies in
    the events of processing one team, after the creation call of that team
    and with no other creation call in between; that creation call was
    answered 201 with a truthy body, and the call addresses the truthy
    identifier found in that body.  Whenever the creation call of a team is
    not answered 201, or [create_team] returns [None], the creation call is
    the only request made for that team: no member fetch, no addition. *)
Theorem member_addition_follows_creation `{Host}
    (destination_org access_token : pyval) :
  (forall source_org past p,
      In (Sent p) (snd (transfer_teams source_org destination_org access_token past)) ->
      req_method p = PUT ->
      exists team pre rest post new_team_id username,
        let creation := creation_request destination_org access_token team in
        let response := respond (requests_of (past ++ pre)) creation in
        snd (transfer_teams source_org destination_org access_token past)
        = (pre ++ (Sent creation :: rest) ++ post)%list /\
        snd (transfer_team destination_org access_token team (past ++ pre)%list)
        = Sent creation :: rest /\
        In (Sent p) rest /\
        calls POST rest = [] /\
        status_code response = 201 /\
        truthy (json response) = true /\
        getitem (json response) "id" = Ret new_team_id /\
        truthy new_team_id = true /\
        p = membership_request new_team_id access_token username) /\
  (forall team past,
      status_code (respond (requests_of past)
                     (creation_request destination_org access_token team)) <> 201
      \/ fst (create_team destination_org access_token team past) = Ret VNone ->
      requests_of (snd (transfer_team destination_org access_token team past))
      = [creation_request destination_org access_token team]).
Proof.
  split; [|intros team past; apply transfer_team_failed_creation].
  intros source_org past p Hin Hput.
  rewrite transfer_teams_run in Hin |- *.
  destruct (get_teams_events source_org access_token past) as (diag & Hevs & Hdiag).
  assert (Hlisting : ~ In (Sent p) (snd (get_teams source_org access_token past))).
  { rewrite Hevs. intros [[= <-]|Hp]; [discriminate|].
    apply sent_in_requests in Hp. rewrite Hdiag in Hp. destruct Hp. }
  destruct (get_teams _ _ _) as [[teams|e] evs0]; cbn [snd] in *; [|contradiction].
  destruct (truthy teams); [|contradiction].
  destruct (py_iter teams) as [items|e]; [|contradiction].
  cbn [snd] in *. apply in_app_or in Hin. destruct Hin as [Hin|Hin]; [contradiction|].
  apply for_each_In in Hin.
  destruct Hin as (team & pre & post & _ & Hrun & Hteam).
  rewrite <- app_assoc in Hrun, Hteam.
  pose proof (transfer_team_creation_call destination_org access_token team
                (past ++ evs0 ++ pre)%list) as Hone.
  destruct (transfer_team_put _ _ _ _ _ Hteam Hput)
    as (rest & new_team_id & username & Hseg & Hrest & Hfacts).
  exists team, (evs0 ++ pre)%list, rest, post, new_team_id, username. cbv zeta.
  rewrite Hrun, Hseg, <- app_assoc. split; [reflexivity|]. split; [reflexivity|].
  split; [assumption|]. split; [|exact Hfacts].
  rewrite Hseg in Hone. unfold calls in Hone |- *.
  cbn [requests_of filter is_method creation_request req_method] in Hone.
  injection Hone as Hone. exact Hone.
Qed.

(** * Concrete runs *)

(** The end-to-end scenario: core is created and alice is added to team
    101; the creation of infra is answered 500 and nothing is fetched or
    added for it. *)
Example acme_run :
  run (@main acme_host (Some "tok") (Some "Acme") (Some "Zenith"))
  = (Ret tt,
     [Sent (mkRequest GET "https://api.github.com/orgs/Acme/teams"
              [("Authorization", "Bearer tok")] None);
      Sent (mkRequest POST "https://api.github.com/orgs/Zenith/teams"
              [("Authorization", "Bearer tok")] (Some team_core));
      Printed "Team - core created successfully in Zenith";
      Sent (mkRequest GET "https://api.github.com/teams/1/members"
              [("Authorization", "Bearer tok")] None);
      Sent (mkRequest PUT "https://api.github.com/teams/101/memberships/alice"
              [("Authorization", "Bearer tok")] None);
      Printed "Member - alice added successfully to team 101";
      Sent (mkRequest POST "https://api.github.com/orgs/Zenith/teams"
              [("Authorization", "Bearer tok")] (Some team_infra));
      Printed "Failed to create team infra in Zenith. Status code: 500"]).
Proof. reflexivity. Qed.

(** Witness of C6: an absent identifier and a non-empty member list. *)
Lemma add_members_guard_witness :
  truthy VNone = false /\
  @add_members_to_team acme_host VNone (VStr "tok") (VList [member_alice]) []
  = (Ret tt, [Printed "Team ID is not valid. Skipping adding members."]).
Proof.
  split; [reflexivity|].
  apply (@add_members_guard acme_host VNone (VStr "tok") (VList [member_alice]) []).
  reflexivity.
Defined.

(** Witness of C4: two members on a platform that refuses every call. *)
Lemma add_members_one_put_per_member_witness :
  exists evs,
    @add_members_to_team unauthorized_host (VInt 101) (VStr "tok")
      (VList [member_alice; member_bob]) [] = (Ret tt, evs) /\
    requests_of evs
    = [mkRequest PUT "https://api.github.com/teams/101/memberships/alice"
         [("Authorization", "Bearer tok")] None;
       mkRequest PUT "https://api.github.com/teams/101/memberships/bob"
         [("Authorization", "Bearer tok")] None] /\
    List.length evs = 4%nat.
Proof.
  apply (@add_members_one_put_per_member unauthorized_host (VInt 101) (VStr "tok")
           [member_alice; member_bob] []); reflexivity.
Defined.

(** Witness of C7 (amended): the three wrappers on their failure side. *)
Lemma status_dispatch_witness :
  has_item team_infra "name" = true /\
  @get_teams acme_host (VStr "Nowhere") (VStr "tok") []
  = (Ret VNone,
     [Sent (mkRequest GET "https://api.github.com/orgs/Nowhere/teams"
              [("Authorization", "Bearer tok")] None);
      Printed "Failed to fetch teams from Nowhere. Status code: 404"]) /\
  @get_team_members acme_host (VInt 2) (VStr "tok") []
  = (Ret VNone,
     [Sent (mkRequest GET "https://api.github.com/teams/2/members"
              [("Authorization", "Bearer tok")] None);
      Printed "Failed to fetch members for team 2. Status code: 404"]) /\
  @create_team acme_host (VStr "Zenith") (VStr "tok") team_infra []
  = (Ret VNone,
     [Sent (mkRequest POST "https://api.github.com/orgs/Zenith/teams"
              [("Authorization", "Bearer tok")] (Some team_infra));
      Printed "Failed to create team infra in Zenith. Status code: 500"]).
Proof.
  split; [reflexivity|].
  apply (@status_dispatch acme_host (VStr "Nowhere") (VInt 2) (VStr "Zenith")
           (VStr "tok") team_infra []).
  reflexivity.
Defined.

(** Counterexample to C7: the creation call is answered 201 and
    [create_team] does not return the body, and it is answered 401 and
    [create_team] neither prints a diagnostic nor returns [None]. *)
Lemma create_team_nameless_no_result :
  status_code (@respond created_host []
                 (@creation_request created_host (VStr "Zenith") (VStr "tok")
                    team_nameless)) = 201 /\
  fst (run (@create_team created_host (VStr "Zenith") (VStr "tok") team_nameless))
  <> Ret (json (@respond created_host []
                  (@creation_request created_host (VStr "Zenith") (VStr "tok")
                     team_nameless))) /\
  run (@create_team created_host (VStr "Zenith") (VStr "tok") team_nameless)
  = (Raise (KeyError "name"),
     [Sent (mkRequest POST "https://api.github.com/orgs/Zenith/teams"
              [("Authorization", "Bearer tok")] (Some team_nameless))]) /\
  run (@create_team unauthorized_host (VStr "Zenith") (VStr "tok") team_nameless)
  = (Raise (KeyError "name"),
     [Sent (mkRequest POST "https://api.github.com/orgs/Zenith/teams"
              [("Authorization", "Bearer tok")] (Some team_nameless))]).
Proof. repeat split. discriminate. Qed.

(** Counterexample to C5: [KeyError] leaves [create_team] for a team
    payload without a name, and [add_members_to_team] for a member without
    a login. *)
Lemma missing_keys_raise :
  fst (run (@create_team acme_host (VStr "Zenith") (VStr "tok") team_nameless))
  = Raise (KeyError "name") /\
  fst (run (@add_members_to_team acme_host (VInt 101) (VStr "tok")
              (VList [member_loginless])))
  = Raise (KeyError "login").
Proof. split; reflexivity. Qed.

(** Witness of C3: an organization whose listing is the empty list. *)
Lemma no_teams_no_calls_witness :
  truthy (VList []) = false /\
  @transfer_teams (fixed_host (mkResponse 200 (VList [])))
    (VStr "Acme") (VStr "Zenith") (VStr "tok") []
  = (Ret tt,
     [Sent (mkRequest GET "https://api.github.com/orgs/Acme/teams"
              [("Authorization", "Bearer tok")] None)]).
Proof.
  split; [reflexivity|].
  apply (@no_teams_no_calls (fixed_host (mkResponse 200 (VList [])))
           (VStr "Acme") (VStr "Zenith") (VStr "tok") [] (VList [])); reflexivity.
Defined.

(** Witness of C8: the variable is unset and every call is refused. *)
Lemma missing_token_warns_and_continues_witness :
  exists rest,
    @main unauthorized_host None (Some "Acme") (Some "Zenith") []
    = (Ret tt,
       Printed token_warning
       :: Sent (mkRequest GET "https://api.github.com/orgs/Acme/teams"
                  [("Authorization", "Bearer None")] None)
       :: rest).
Proof.
  apply (@missing_token_warns_and_continues unauthorized_host None
           (Some "Acme") (Some "Zenith") []).
  left. reflexivity.
Defined.

(** Witness of C10: the created team gets the falsy identifier 0 and the
    source team has no member. *)
Lemma empty_member_list_skips_addition_witness :
  @transfer_team memberless_host (VStr "Zenith") (VStr "tok") team_core []
  = (Ret tt,
     [Sent (mkRequest POST "https://api.github.com/orgs/Zenith/teams"
              [("Authorization", "Bearer tok")] (Some team_core));
      Printed "Team - core created successfully in Zenith";
      Sent (mkRequest GET "https://api.github.com/teams/1/members"
              [("Authorization", "Bearer tok")] None)]).
Proof.
  apply (@empty_member_list_skips_addition memberless_host
           (VStr "Zenith") (VStr "tok") team_core []
           (VDict [("id", VInt 0); ("name", VStr "core")]) (VInt 0) (VInt 1)
           (VList [])
           [Sent (mkRequest POST "https://api.github.com/orgs/Zenith/teams"
                    [("Authorization", "Bearer tok")] (Some team_core));
            Printed "Team - core created successfully in Zenith"]
           [Sent (mkRequest GET "https://api.github.com/teams/1/members"
                    [("Authorization", "Bearer tok")] None)]);
    try reflexivity.
  left. reflexivity.
Defined.

(** Witness of C2 (amended): the end-to-end scenario, whose run ends without
    an exception, has one creation call per team, in order. *)
Lemma creation_calls_follow_team_list_witness :
  calls POST (snd (@transfer_teams acme_host (VStr "Acme") (VStr "Zenith")
                     (VStr "tok") []))
  = [mkRequest POST "https://api.github.com/orgs/Zenith/teams"
       [("Authorization", "Bearer tok")] (Some team_core);
     mkRequest POST "https://api.github.com/orgs/Zenith/teams"
       [("Authorization", "Bearer tok")] (Some team_infra)].
Proof.
  apply (@creation_calls_follow_team_list acme_host (VStr "Acme") (VStr "Zenith")
           (VStr "tok") [] [team_core; team_infra]); reflexivity.
Defined.

(** Counterexample to C2: the listing returns two teams and only the first
    gets a creation call, because processing it raises: its payload has no
    name on one platform, the body of the 201 reply has no identifier on
    the other. *)
Lemma creation_calls_stop_at_exception :
  calls POST (snd (run (@transfer_teams (org_host (VList [team_nameless; team_infra]))
                          (VStr "Acme") (VStr "Zenith") (VStr "tok"))))
  <> map (@creation_request (org_host (VList [team_nameless; team_infra]))
            (VStr "Zenith") (VStr "tok"))
         [team_nameless; team_infra] /\
  (fst (run (@get_teams (org_host (VList [team_nameless; team_infra]))
               (VStr "Acme") (VStr "tok")))
   = Ret (VList [team_nameless; team_infra]) /\
   run (@transfer_teams (org_host (VList [team_nameless; team_infra]))
          (VStr "Acme") (VStr "Zenith") (VStr "tok"))
   = (Raise (KeyError "name"),
      [Sent (mkRequest GET "https://api.github.com/orgs/Acme/teams"
               [("Authorization", "Bearer tok")] None);
       Sent (mkRequest POST "https://api.github.com/orgs/Zenith/teams"
               [("Authorization", "Bearer tok")] (Some team_nameless))])) /\
  (fst (run (@get_teams idless_host (VStr "Acme") (VStr "tok")))
   = Ret (VList [team_core; team_infra]) /\
   run (@transfer_teams idless_host (VStr "Acme") (VStr "Zenith") (VStr "tok"))
   = (Raise (KeyError "id"),
      [Sent (mkRequest GET "https://api.github.com/orgs/Acme/teams"
               [("Authorization", "Bearer tok")] None);
       Sent (mkRequest POST "https://api.github.com/orgs/Zenith/teams"
               [("Authorization", "Bearer tok")] (Some team_core));
       Printed "Team - core created successfully in Zenith"])).
Proof. repeat split. discriminate. Qed.

(** Witness of C1: in the end-to-end scenario the addition of alice follows
    the creation of core, answered 201 with identifier 101, and the failed
    creation of infra is the only request made for infra. *)
Lemma member_addition_follows_creation_witness :
  (exists team pre rest post new_team_id username,
      snd (@transfer_teams acme_host (VStr "Acme") (VStr "Zenith") (VStr "tok") [])
      = (pre ++ (Sent (@creation_request acme_host (VStr "Zenith") (VStr "tok") team)
                 :: rest) ++ post)%list /\
      snd (@transfer_team acme_host (VStr "Zenith") (VStr "tok") team ([] ++ pre)%list)
      = Sent (@creation_request acme_host (VStr "Zenith") (VStr "tok") team) :: rest /\
      In (Sent (mkRequest PUT "https://api.github.com/teams/101/memberships/alice"
                  [("Authorization", "Bearer tok")] None)) rest /\
      calls POST rest = [] /\
      status_code (@respond acme_host (requests_of ([] ++ pre))
                     (@creation_request acme_host (VStr "Zenith") (VStr "tok") team))
      = 201 /\
      truthy (json (@respond acme_host (requests_of ([] ++ pre))
                      (@creation_request acme_host (VStr "Zenith") (VStr "tok") team)))
      = true /\
      getitem (json (@respond acme_host (requests_of ([] ++ pre))
                       (@creation_request acme_host (VStr "Zenith") (VStr "tok") team)))
              "id" = Ret new_team_id /\
      truthy new_team_id = true /\
      mkRequest PUT "https://api.github.com/teams/101/memberships/alice"
        [("Authorization", "Bearer tok")] None
      = @membership_request acme_host new_team_id (VStr "tok") username) /\
  requests_of (snd (@transfer_team acme_host (VStr "Zenith") (VStr "tok") team_infra []))
  = [mkRequest POST "https://api.github.com/orgs/Zenith/teams"
       [("Authorization", "Bearer tok")] (Some team_infra)].
Proof.
  destruct (@member_addition_follows_creation acme_host (VStr "Zenith") (VStr "tok"))
    as [Hput Hfailed].
  split.
  - apply (Hput (VStr "Acme") []
             (mkRequest PUT "https://api.github.com/teams/101/memberships/alice"
                [("Authorization", "Bearer tok")] None)).
    + vm_compute. do 4 right. left. reflexivity.
    + reflexivity.
  - apply (Hfailed team_infra []). left. vm_compute. discriminate.
Defined.

(** * Further properties of the script *)

Section Protocol.
Context `{Host}.

(** The requests made for one team: its creation, the fetch of the members
    of the source team, additions to a team with a truthy identifier. *)
Lemma transfer_team_requests (destination_org access_token team : pyval)
    (past : list Event) :
  Forall (fun e => match e with
                   | Sent r =>
                       r = creation_request destination_org access_token team \/
                       (exists source_id, getitem team "id" = Ret source_id /\
                          r = members_request source_id access_token) \/
                       (exists team_id username, truthy team_id = true /\
                          r = membership_request team_id access_token username)
                   | Printed _ => True
                   end)
         (snd (transfer_team destination_org access_token team past)).
Proof.
  match goal with |- Forall ?Q _ => remember Q as P eqn:HP end.
  assert (Hcreation : P (Sent (creation_request destination_org access_token team)))
    by (rewrite HP; auto).
  assert (Hprinted : forall line, P (Printed line)) by (rewrite HP; exact (fun _ => I)).
  assert (Hfetch : forall source_id, getitem team "id" = Ret source_id ->
                     P (Sent (members_request source_id access_token)))
    by (rewrite HP; eauto).
  assert (Hput : forall team_id username, truthy team_id = true ->
                   P (Sent (membership_request team_id access_token username)))
    by (rewrite HP; eauto 6).
  clear HP.
  rewrite transfer_team_run, create_team_run. cbv zeta.
  destruct (getitem team "name") as [name|e]; [|repeat constructor; auto].
  destruct (status_code _ =? 201); [|repeat constructor; auto].
  destruct (truthy (json _)); [|repeat constructor; auto].
  destruct (getitem (json _) "id") as [new_team_id|e]; [|repeat constructor; auto].
  destruct (getitem team "id") as [source_id|e] eqn:Hsource;
    [|repeat constructor; auto].
  rewrite get_team_members_run. cbv zeta.
  destruct (status_code _ =? 200);
    [|cbn [snd app]; repeat constructor; auto].
  destruct (truthy (json (respond _ (members_request _ _))));
    [|cbn [snd app]; repeat constructor; auto].
  cbn [fst snd app]. do 3 (constructor; [auto|]).
  apply Forall_forall. intros [r|line] Hin; [|auto].
  apply add_members_events in Hin. destruct Hin as (Hid & username & ->).
  auto.
Qed.

(** The loop over members stops at the first member whose login cannot be
    read, having sent the PUTs of the members before it. *)
Lemma put_loop_stops (team_id : pyval) (url : string)
    (headers : list (string * string)) (bad : pyval) (rest : list pyval) (e : exn) :
  getitem bad "login" = Raise e ->
  forall good past,
    forallb (fun m => has_item m "login") good = true ->
    exists evs,
      for_each (good ++ bad :: rest) (add_member team_id url headers) past
      = (Raise e, evs) /\
      requests_of evs
      = map (fun m => mkRequest PUT (url ++ "/" ++ py_str (item m "login"))
                                headers None) good.
Proof.
  intros Hbad good. induction good as [|m good IH]; intros past Hall.
  - exists []. cbn [app]. rewrite for_each_cons, add_member_run, Hbad.
    split; reflexivity.
  - cbn [forallb] in Hall. apply andb_true_iff in Hall. destruct Hall as [Hm Hall].
    cbn [app]. rewrite for_each_cons, add_member_run.
    unfold has_item in Hm.
    destruct (getitem m "login") as [username|e'] eqn:Hlogin; [|discriminate].
    cbv beta iota zeta.
    match goal with
    | |- context [for_each _ _ ?p] =>
        destruct (IH p Hall) as (evs & Hrun & Hreq)
    end.
    rewrite Hrun. eexists. split; [reflexivity|].
    cbn [fst snd app requests_of map]. unfold item at 1.
    rewrite Hreq, Hlogin. reflexivity.
Qed.

(** When no creation is answered 201, the loop over teams whose name can be
    read comes to its end with one creation call per team. *)
Lemma refused_loop (destination_org access_token : pyval) :
  (forall history team,
      status_code (respond history
                     (creation_request destination_org access_token team)) <> 201) ->
  forall items past,
    forallb (fun team => has_item team "name") items = true ->
    exists evs,
      for_each items (transfer_team destination_org access_token) past
      = (Ret tt, evs) /\
      requests_of evs = map (creation_request destination_org access_token) items.
Proof.
  intros Hrefused items. induction items as [|team items IH]; intros past Hall.
  - exists []. split; reflexivity.
  - cbn [forallb] in Hall. apply andb_true_iff in Hall. destruct Hall as [Hname Hall].
    rewrite for_each_cons, transfer_team_run, create_team_run. cbv zeta.
    unfold has_item in Hname.
    destruct (getitem team "name") as [name|e]; [|discriminate].
    destruct (status_code _ =? 201) eqn:Hstatus;
      [apply Z.eqb_eq in Hstatus; destruct (Hrefused _ _ Hstatus)|].
    cbn [truthy]. cbv beta iota.
    match goal with
    | |- context [for_each _ _ ?p] =>
        destruct (IH p Hall) as (evs & Hrun & Hreq)
    end.
    rewrite Hrun. eexists. split; [reflexivity|].
    cbn [fst snd app requests_of map]. rewrite Hreq. reflexivity.
Qed.

(** The requests of a run are the four requests of the protocol. *)
Lemma transfer_teams_requests (source_org destination_org access_token : pyval)
    (past : list Event) :
  Forall (fun e => match e with
                   | Sent r =>
                       r = listing_request source_org access_token \/
                       (exists team,
                          r = creation_request destination_org access_token team) \/
                       (exists team source_id, getitem team "id" = Ret source_id /\
                          r = members_request source_id access_token) \/
                       (exists team_id username, truthy team_id = true /\
                          r = membership_request team_id access_token username)
                   | Printed _ => True
                   end)
         (snd (transfer_teams source_org destination_org access_token past)).
Proof.
  rewrite transfer_teams_run.
  match goal with |- Forall ?Q _ => remember Q as P eqn:HP end.
  assert (Hlisting : Forall P (snd (get_teams source_org access_token past))).
  { rewrite get_teams_run. cbv zeta.
    destruct (status_code _ =? 200); rewrite HP; repeat constructor; auto. }
  destruct (get_teams _ _ _) as [[teams|e] evs0]; cbn [snd] in *; [|assumption].
  destruct (truthy teams); [|assumption].
  destruct (py_iter teams) as [items|e]; [|assumption].
  cbn [snd]. apply Forall_app. split; [assumption|].
  apply for_each_Forall. intros team past'.
  eapply Forall_impl; [|apply transfer_team_requests].
  rewrite HP. intros [r|line]; [|auto].
  intros [->|[(source_id & Hid & ->)|(team_id & username & Hid & ->)]]; eauto 8.
Qed.

End Protocol.

(** X1.  Whatever the token variable holds, every request of a run carries
    one header, Authorization, whose value is "Bearer " followed by the
    text of the token: the token itself, nothing for an empty token, "None"
    for an unset one. *)
Theorem every_request_bears_the_token `{Host}
    (env_token source_org destination_org : option string) (past : list Event) :
  Forall (fun r => req_headers r
                   = [("Authorization",
                       "Bearer " ++ match env_token with
                                    | Some token => token
                                    | None => "None"
                                    end)])
         (requests_of (snd (main env_token source_org destination_org past))).
Proof.
  unfold main. rewrite bind_run.
  assert (Hheaders : forall past',
             Forall (fun r => req_headers r
                              = [("Authorization",
                                  "Bearer " ++ match env_token with
                                               | Some token => token
                                               | None => "None"
                                               end)])
                    (requests_of (snd (transfer_teams (of_option source_org)
                                         (of_option destination_org)
                                         (of_option env_token) past')))).
  { intros past'. apply requests_Forall.
    pose proof (transfer_teams_headers (of_option source_org)
                  (of_option destination_org) (of_option env_token) past') as Hall.
    destruct env_token; exact Hall. }
  destruct (negb (truthy (of_option env_token))); cbv [print ret];
    cbn [fst snd app requests_of]; apply Hheaders.
Qed.



(** X4.  Given a truthy team identifier and members that are not a list,
    [add_members_to_team] sends nothing: it returns when there is nothing to
    walk (an empty string or object) and raises [TypeError] otherwise. *)
Theorem members_not_a_list `{Host} (team_id access_token members : pyval)
    (past : list Event) :
  truthy team_id = true ->
  (forall items, members <> VList items) ->
  add_members_to_team team_id access_token members past
  = (match py_iter members with
     | Ret [] => Ret tt
     | _ => Raise TypeError
     end, []).
Proof.
  intros Hid Hnot. rewrite add_members_to_team_run, Hid.
  destruct members as [| | | |s|items|entries]; try reflexivity.
  - destruct s as [|c s]; [reflexivity|].
    cbn [py_iter chars]. rewrite for_each_cons, add_member_run. reflexivity.
  - destruct (Hnot items eq_refl).
  - destruct entries as [|[k x] entries]; [reflexivity|].
    cbn [py_iter map fst]. rewrite for_each_cons, add_member_run. reflexivity.
Qed.

(** X5.  [add_members_to_team] stops at the first member whose login cannot
    be read: the members before it have got their PUT, in order, the
    exception of the read leaves the function, and the members after it get
    nothing. *)
Theorem add_members_stops_at_unreadable_login `{Host}
    (team_id access_token bad : pyval) (good rest : list pyval)
    (past : list Event) :
  truthy team_id = true ->
  forallb (fun m => has_item m "login") good = true ->
  has_item bad "login" = false ->
  exists e evs,
    getitem bad "login" = Raise e /\
    add_members_to_team team_id access_token (VList (good ++ bad :: rest)) past
    = (Raise e, evs) /\
    requests_of evs
    = map (fun m => membership_request team_id access_token (item m "login")) good.
Proof.
  intros Hid Hgood Hbad. unfold has_item in Hbad.
  destruct (getitem bad "login") as [username|e] eqn:Hlogin; [discriminate|].
  rewrite add_members_to_team_run, Hid. cbn [py_iter].
  destruct (put_loop_stops team_id
              (apiUrl ++ "/teams/" ++ py_str team_id ++ "/memberships")
              (auth_headers access_token) bad rest e Hlogin good past Hgood)
    as (evs & Hrun & Hreq).
  exists e, evs. auto.
Qed.

(** X6.  When the creation of a team is answered 201 with a truthy body
    whose identifier is truthy, and the fetch of the members of the source
    team is answered 200 with a list of members whose logins can be read,
    then processing the team returns normally and its requests are: the
    creation, the fetch under the identifier of the source team, and one
    addition per member, in order, under the identifier of the created
    team. *)
Theorem team_and_members_transferred `{Host}
    (destination_org access_token team : pyval) (past : list Event)
    (new_team_id source_id : pyval) (members : list pyval) :
  let creation := creation_request destination_org access_token team in
  let created := respond (requests_of past) creation in
  let fetch := members_request source_id access_token in
  let fetched := respond (requests_of past ++ [creation]) fetch in
  has_item team "name" = true ->
  status_code created = 201 ->
  truthy (json created) = true ->
  getitem (json created) "id" = Ret new_team_id ->
  truthy new_team_id = true ->
  getitem team "id" = Ret source_id ->
  status_code fetched = 200 ->
  json fetched = VList members ->
  forallb (fun m => has_item m "login") members = true ->
  exists evs,
    transfer_team destination_org access_token team past = (Ret tt, evs) /\
    requests_of evs
    = creation :: fetch
      :: map (fun m => membership_request new_team_id access_token (item m "login"))
             members.
Proof.
  cbv zeta.
  intros Hname Hcreated Hbody Hnew Hid Hsource Hfetched Hmembers Hlogins.
  rewrite transfer_team_run, create_team_run. cbv zeta.
  unfold has_item in Hname.
  destruct (getitem team "name") as [name|e]; [|discriminate].
  rewrite Hcreated. cbn [Z.eqb Pos.eqb]. rewrite Hbody, Hnew, Hsource.
  rewrite get_team_members_run. cbv zeta.
  rewrite requests_of_app. cbn [requests_of]. rewrite Hfetched.
  cbn [Z.eqb Pos.eqb]. rewrite Hmembers.
  destruct members as [|m members].
  - eexists. split; reflexivity.
  - cbn [truthy]. rewrite add_members_to_team_run, Hid. cbn [py_iter].
    match goal with
    | |- context [for_each _ _ ?p] =>
        destruct (put_loop new_team_id
                    (apiUrl ++ "/teams/" ++ py_str new_team_id ++ "/memberships")
                    (auth_headers access_token) (m :: members) p Hlogins)
          as (evs & Hrun & Hreq & _)
    end.
    rewrite Hrun. eexists. split; [reflexivity|].
    cbn [fst snd app requests_of]. rewrite Hreq. reflexivity.
Qed.

(** X7.  When the creation of a team is answered 201 with a falsy body (an
    empty object, null), the success line is printed and nothing more is
    done for the team: no member fetch, no addition, no exception. *)
Theorem created_with_falsy_body `{Host}
    (destination_org access_token team : pyval) (past : list Event) :
  let creation := creation_request destination_org access_token team in
  let created := respond (requests_of past) creation in
  has_item team "name" = true ->
  status_code created = 201 ->
  truthy (json created) = false ->
  transfer_team destination_org access_token team past
  = (Ret tt,
     [Sent creation;
      Printed ("Team - " ++ py_str (item team "name")
               ++ " created successfully in " ++ py_str destination_org)]).
Proof.
  cbv zeta. intros Hname Hcreated Hbody.
  rewrite transfer_team_run, create_team_run. cbv zeta.
  unfold has_item in Hname. unfold item.
  destruct (getitem team "name") as [name|e]; [|discriminate].
  rewrite Hcreated. cbn [Z.eqb Pos.eqb]. rewrite Hbody. reflexivity.
Qed.

(** X8.  When the creation of a team is answered 201 with a truthy body and
    the identifier of that body, or else the identifier of the source team,
    cannot be read, the team has been created and the success line
    printed, then the exception of the read leaves the orchestrator's loop
    body: no member is fetched or added. *)
Theorem created_then_unreadable_identifier `{Host}
    (destination_org access_token team : pyval) (past : list Event) :
  let creation := creation_request destination_org access_token team in
  let created := respond (requests_of past) creation in
  has_item team "name" = true ->
  status_code created = 201 ->
  truthy (json created) = true ->
  has_item (json created) "id" && has_item team "id" = false ->
  exists e,
    (getitem (json created) "id" = Raise e \/ getitem team "id" = Raise e) /\
    transfer_team destination_org access_token team past
    = (Raise e,
       [Sent creation;
        Printed ("Team - " ++ py_str (item team "name")
                 ++ " created successfully in " ++ py_str destination_org)]).
Proof.
  cbv zeta. intros Hname Hcreated Hbody Hids.
  rewrite transfer_team_run, create_team_run. cbv zeta.
  unfold has_item in Hname, Hids. unfold item.
  destruct (getitem team "name") as [name|e]; [|discriminate].
  rewrite Hcreated. cbn [Z.eqb Pos.eqb]. rewrite Hbody.
  destruct (getitem (json _) "id") as [new_team_id|e]; [|exists e; auto].
  destruct (getitem team "id") as [source_id|e]; [discriminate|exists e; auto].
Qed.

(** X9.  A refused creation does not stop the loop: when the listing
    returns a list of teams whose names can be read and no creation is
    answered 201, [transfer_teams] returns normally and its requests are the
    listing and one creation per team, in order; nothing is fetched or
    added. *)
Theorem refused_creations_do_not_stop_the_run `{Host}
    (source_org destination_org access_token : pyval) (past : list Event)
    (items : list pyval) :
  (forall history team,
      status_code (respond history
                     (creation_request destination_org access_token team)) <> 201) ->
  fst (get_teams source_org access_token past) = Ret (VList items) ->
  forallb (fun team => has_item team "name") items = true ->
  exists evs,
    transfer_teams source_org destination_org access_token past = (Ret tt, evs) /\
    requests_of evs
    = listing_request source_org access_token
      :: map (creation_request destination_org access_token) items.
Proof.
  intros Hrefused Hlist Hnames. rewrite transfer_teams_run.
  destruct (get_teams_events source_org access_token past) as (diag & Hevs & Hdiag).
  destruct (get_teams _ _ _) as [[teams|e] evs0]; cbn [fst snd] in *; [|discriminate].
  injection Hlist as ->. subst evs0.
  destruct items as [|team items].
  - eexists. split; [reflexivity|]. cbn [requests_of map]. rewrite Hdiag. reflexivity.
  - cbn [truthy py_iter].
    match goal with
    | |- context [for_each _ _ ?p] =>
        destruct (refused_loop destination_org access_token Hrefused
                    (team :: items) p Hnames) as (evs & Hrun & Hreq)
    end.
    rewrite Hrun. eexists. split; [reflexivity|].
    cbn [fst snd]. rewrite requests_of_app. cbn [requests_of].
    rewrite Hdiag, Hreq. reflexivity.
Qed.

(** X10.  Omitted command-line options are not refused.  Without
    [--source_org] the first request of the script is the listing of an
    organization called None; without [--destination_org] every creation is
    posted to the teams of an organization called None. *)
Theorem omitted_options_name_none `{Host}
    (env_token source_org destination_org : option string) (past : list Event) :
  (source_org = None ->
   exists before rest,
     snd (main env_token source_org destination_org past)
     = (before
        ++ Sent (mkRequest GET "https://api.github.com/orgs/None/teams"
                   (auth_headers (of_option env_token)) None) :: rest)%list /\
     requests_of before = []) /\
  (destination_org = None ->
   Forall (fun r => req_url r = "https://api.github.com/orgs/None/teams")
          (calls POST (snd (main env_token source_org destination_org past)))).
Proof.
  split.
  - intros ->. unfold main. rewrite bind_run.
    destruct (negb (truthy (of_option env_token))); cbv [print ret];
      cbn [fst snd app].
    + destruct (transfer_teams_first_event (of_option None)
                  (of_option destination_org) (of_option env_token)
                  (past ++ [Printed token_warning])%list) as (rest & ->).
      exists [Printed token_warning], rest. split; reflexivity.
    + destruct (transfer_teams_first_event (of_option None)
                  (of_option destination_org) (of_option env_token)
                  (past ++ [])%list) as (rest & ->).
      exists [], rest. split; reflexivity.
  - intros ->. unfold main. rewrite bind_run.
    assert (Hposts : forall past',
               Forall (fun r => req_url r = "https://api.github.com/orgs/None/teams")
                      (calls POST (snd (transfer_teams (of_option source_org)
                                          (of_option None) (of_option env_token)
                                          past')))).
    { intros past'. unfold calls. apply Forall_forall. intros r Hr.
      apply filter_In in Hr. destruct Hr as [Hsent Hpost].
      pose proof (requests_Forall _ _
                    (transfer_teams_requests (of_option source_org) (of_option None)
                       (of_option env_token) past')) as Hall.
      rewrite Forall_forall in Hall. specialize (Hall r Hsent).
      destruct Hall as [->|[(team & ->)|[(team & source_id & _ & ->)
                                       |(team_id & username & _ & ->)]]];
        first [reflexivity|discriminate Hpost]. }
    destruct (negb (truthy (of_option env_token))); cbv [print ret];
      cbn [fst snd app]; unfold calls in *; cbn [requests_of]; apply Hposts.
Qed.


(** Witness of X4: the members are an object. *)
Lemma members_not_a_list_witness :
  @add_members_to_team acme_host (VInt 101) (VStr "tok")
    (VDict [("message", VStr "ok")]) []
  = (Raise TypeError, []).
Proof.
  apply (@members_not_a_list acme_host (VInt 101) (VStr "tok")
           (VDict [("message", VStr "ok")]) []).
  - reflexivity.
  - intros items. discriminate.
Defined.

(** Witness of X5: alice, then a member without login, then bob. *)
Lemma add_members_stops_at_unreadable_login_witness :
  exists e evs,
    getitem member_loginless "login" = Raise e /\
    @add_members_to_team acme_host (VInt 101) (VStr "tok")
      (VList ([member_alice] ++ member_loginless :: [member_bob])) []
    = (Raise e, evs) /\
    requests_of evs
    = [mkRequest PUT "https://api.github.com/teams/101/memberships/alice"
         [("Authorization", "Bearer tok")] None].
Proof.
  apply (@add_members_stops_at_unreadable_login acme_host (VInt 101) (VStr "tok")
           member_loginless [member_alice] [member_bob] []); reflexivity.
Defined.

(** Witness of X6: the team core of the end-to-end scenario. *)
Lemma team_and_members_transferred_witness :
  exists evs,
    @transfer_team acme_host (VStr "Zenith") (VStr "tok") team_core [] = (Ret tt, evs) /\
    requests_of evs
    = [mkRequest POST "https://api.github.com/orgs/Zenith/teams"
         [("Authorization", "Bearer tok")] (Some team_core);
       mkRequest GET "https://api.github.com/teams/1/members"
         [("Authorization", "Bearer tok")] None;
       mkRequest PUT "https://api.github.com/teams/101/memberships/alice"
         [("Authorization", "Bearer tok")] None].
Proof.
  apply (@team_and_members_transferred acme_host (VStr "Zenith") (VStr "tok")
           team_core [] (VInt 101) (VInt 1) [member_alice]); reflexivity.
Defined.

(** Witness of X7: a creation answered 201 with an empty object. *)
Lemma created_with_falsy_body_witness :
  @transfer_team hollow_host (VStr "Zenith") (VStr "tok") team_core []
  = (Ret tt,
     [Sent (mkRequest POST "https://api.github.com/orgs/Zenith/teams"
              [("Authorization", "Bearer tok")] (Some team_core));
      Printed "Team - core created successfully in Zenith"]).
Proof.
  apply (@created_with_falsy_body hollow_host (VStr "Zenith") (VStr "tok")
           team_core []); reflexivity.
Defined.

(** Witness of X8: a creation answered 201 with a body without identifier. *)
Lemma created_then_unreadable_identifier_witness :
  exists e,
    (getitem (VDict [("name", VStr "core")]) "id" = Raise e \/
     getitem team_core "id" = Raise e) /\
    @transfer_team idless_host (VStr "Zenith") (VStr "tok") team_core []
    = (Raise e,
       [Sent (mkRequest POST "https://api.github.com/orgs/Zenith/teams"
                [("Authorization", "Bearer tok")] (Some team_core));
        Printed "Team - core created successfully in Zenith"]).
Proof.
  apply (@created_then_unreadable_identifier idless_host (VStr "Zenith") (VStr "tok")
           team_core []); reflexivity.
Defined.

(** Witness of X9: both creations are answered 403. *)
Lemma refused_creations_do_not_stop_the_run_witness :
  exists evs,
    @transfer_teams forbidden_host (VStr "Acme") (VStr "Zenith") (VStr "tok") []
    = (Ret tt, evs) /\
    requests_of evs
    = [mkRequest GET "https://api.github.com/orgs/Acme/teams"
         [("Authorization", "Bearer tok")] None;
       mkRequest POST "https://api.github.com/orgs/Zenith/teams"
         [("Authorization", "Bearer tok")] (Some team_core);
       mkRequest POST "https://api.github.com/orgs/Zenith/teams"
         [("Authorization", "Bearer tok")] (Some team_infra)].
Proof.
  apply (@refused_creations_do_not_stop_the_run forbidden_host
           (VStr "Acme") (VStr "Zenith") (VStr "tok") [] [team_core; team_infra]).
  - intros history team. simpl. discriminate.
  - reflexivity.
  - reflexivity.
Defined.

(** Witness of X10: neither option is given, on a platform that lists core
    and infra under every name and refuses the creations. *)
Lemma omitted_options_name_none_witness :
  (exists before rest,
      snd (@main forbidden_host (Some "tok") None None [])
      = (before
         ++ Sent (mkRequest GET "https://api.github.com/orgs/None/teams"
                    [("Authorization", "Bearer tok")] None) :: rest)%list /\
      requests_of before = []) /\
  Forall (fun r => req_url r = "https://api.github.com/orgs/None/teams")
         (calls POST (snd (@main forbidden_host (Some "tok") None None []))).
Proof.
  destruct (@omitted_options_name_none forbidden_host (Some "tok") None None [])
    as [Hsource Hdestination].
  split; [apply Hsource|apply Hdestination]; reflexivity.
Defined.

(** ** The exceptions that can end a run *)

Section Exceptions.
Context `{Host}.






End Exceptions.


